(** * Organizational Unit plugin: the [ou_add] pre-processing hook

    A shallow embedding of [ipaserver/plugins/ou.py].  The only behaviour of
    the plugin is [ou_add.pre_callback]: it makes sure that the container
    [cn=altou,<basedn>] exists, fills in a default [objectCategory] and hands
    the DN back to the host's create command.

    The directory connection [ldap] belongs to the host framework.  The hook
    is therefore embedded as a program over the two directory calls it makes;
    a program is run against an arbitrary client, and the call trace is
    recorded by the interpreter. *)

From Stdlib Require Import Ascii String.
From stdpp Require Import base strings list gmap.

Open Scope string_scope.

(** ** Distinguished names ([ipapython.dn.DN]) *)

(** Modelled from the spec: [DN] is the host framework's type, a
    hierarchical path of relative-distinguished-name components, most
    specific first; a component is an attribute/value pair. *)
Abbreviation RDN := (string * string)%type.
Abbreviation DN := (list (string * string)).

Definition RDN_str (r : RDN) : string := r.1 +:+ "=" +:+ r.2.

(** [str(dn)]: the relative names joined by commas.  Values are rendered as
    they are (the escaping of special characters by the DN library is not
    part of the plugin). *)
Definition DN_str (d : DN) : string := String.concat "," (RDN_str <$> d).

(** [DN(a, b)]: the relative names of [a] followed by those of [b]. *)
Definition DN_join (a b : DN) : DN := a ++ b.

(** ** Exceptions ([ipalib.errors]) *)

Module errors.

(** Modelled from the spec: the exceptions of the host framework that a
    directory call can raise.  [NotFound] and [DuplicateEntry] are the two
    classes the hook names; [OtherError] stands for every other subclass of
    [Exception]. *)
Inductive exn : Type :=
| NotFound (reason : string)
| DuplicateEntry (message : string)
| OtherError (message : string).

(** [str(e)] *)
Definition str (e : exn) : string :=
  match e with
  | NotFound reason => reason
  | DuplicateEntry message => message
  | OtherError message => message
  end.

End errors.
Export errors.

Inductive result (A : Type) : Type :=
| Ok (a : A)
| Err (e : exn).
Arguments Ok {A} a.
Arguments Err {A} e.

(** ** Entries ([ipapython.ipaldap.LDAPEntry]) *)

(** Python values assigned to an attribute: a string or a list of strings. *)
Inductive pyvalue : Type :=
  | PyStr (s : string)
  | PyList (l : list string).

(** An entry keeps every attribute value as a list; a scalar that is
    assigned is stored as the one-element list. *)
Definition as_list (v : pyvalue) : list string :=
  match v with
  | PyStr s => [s]
  | PyList l => l
  end.

Definition lower_ascii (c : ascii) : ascii :=
  let n := nat_of_ascii c in
  if (65 <=? n)%nat && (n <=? 90)%nat then ascii_of_nat (n + 32) else c.

(** [name.lower()] *)
Fixpoint lower (s : string) : string :=
  match s with
  | EmptyString => EmptyString
  | String c s' => String (lower_ascii c) (lower s')
  end.

(** Modelled from the spec: [LDAPEntry] is the host framework's entry type,
    the DirectoryEntry of the data model: a DN and a mapping from attribute
    name to one-or-many string values.  Attribute names are matched without
    regard to case (the hook tests ['objectcategory'] and assigns
    ['objectCategory'] for one and the same attribute), so the mapping is
    keyed by the lower-cased name. *)
Record LDAPEntry : Type := mkLDAPEntry {
  dn : DN;
  attrs : gmap string (list string)
}.

(** [name in entry] *)
Definition contains (name : string) (entry : LDAPEntry) : bool :=
  match attrs entry !! lower name with
  | Some _ => true
  | None => false
  end.

(** [entry[name]] (where [None] is Python's [KeyError]) *)
Definition getitem (name : string) (entry : LDAPEntry) : option (list string) :=
  attrs entry !! lower name.

(** [entry[name] = value] *)
Definition setitem (name : string) (value : pyvalue) (entry : LDAPEntry) : LDAPEntry :=
  {| dn := dn entry; attrs := <[lower name := as_list value]> (attrs entry) |}.

(** [ldap.make_entry(dn, **kwargs)]: a fresh entry in which every keyword is
    assigned in turn. *)
Definition make_entry (d : DN) (kwargs : list (string * pyvalue)) : LDAPEntry :=
  foldl (fun entry kw => setitem kw.1 kw.2 entry) {| dn := d; attrs := ∅ |} kwargs.

(** ** Programs over the directory connection *)

(** The two calls the hook makes on [ldap]. *)
Inductive call : Type :=
  | GetEntry (d : DN) (attrs_list : list string)
  | AddEntry (entry : LDAPEntry).

(** A program either returns, raises, or makes a directory call and goes on
    with what the call returned or raised. *)
Inductive prog (A : Type) : Type :=
  | Return (a : A)
  | Raise (e : exn)
  | Get_entry (d : DN) (attrs_list : list string) (k : result LDAPEntry -> prog A)
  | Add_entry (entry : LDAPEntry) (k : result unit -> prog A).
Arguments Return {A} a.
Arguments Raise {A} e.
Arguments Get_entry {A} d attrs_list k.
Arguments Add_entry {A} entry k.

Definition of_result {A} (r : result A) : prog A :=
  match r with
  | Ok a => Return a
  | Err e => Raise e
  end.

(** [ldap.get_entry(dn, attrs_list)] *)
Definition get_entry (d : DN) (attrs_list : list string) : prog LDAPEntry :=
  Get_entry d attrs_list of_result.

(** [ldap.add_entry(entry)] *)
Definition add_entry (entry : LDAPEntry) : prog unit :=
  Add_entry entry of_result.

(** Sequencing: an exception raised by [p] skips [f]. *)
Fixpoint bind {A B} (p : prog A) (f : A -> prog B) : prog B :=
  match p with
  | Return a => f a
  | Raise e => Raise e
  | Get_entry d l k => Get_entry d l (fun r => bind (k r) f)
  | Add_entry entry k => Add_entry entry (fun r => bind (k r) f)
  end.

(** [try: p except Exception as e: h e] *)
Fixpoint try_except {A} (p : prog A) (h : exn -> prog A) : prog A :=
  match p with
  | Return a => Return a
  | Raise e => h e
  | Get_entry d l k => Get_entry d l (fun r => try_except (k r) h)
  | Add_entry entry k => Add_entry entry (fun r => try_except (k r) h)
  end.

#[global] Instance prog_ret : MRet prog := @Return.
#[global] Instance prog_bind : MBind prog := fun A B f p => bind p f.

(** ** The plugin *)

Module ou.

(** [container_dn = DN(('cn', 'altou'))] *)
Definition container_dn : DN := [("cn", "altou")].

Definition object_class : list string :=
  ["altOrganizationalUnit"; "organizationalUnit"; "top"].

Definition default_attributes : list string :=
  ["ou"; "description"; "gPLink"; "objectCategory"].

End ou.

(** The message of the provisioning failure,
    ['Failed to create container %(container)s: %(error)s'] with both
    fields filled in (no message catalogue is installed for the plugin, so
    the message id is the message). *)
Definition failed_to_create (container error : string) : string :=
  "Failed to create container " +:+ container +:+ ": " +:+ error.

Section ou_add.

(** [api.env.basedn] *)
Variable basedn : DN.

(** Lines 135-139 of [pre_callback]: the entry the hook builds for the
    container. *)
Definition container_entry (container_dn : DN) : LDAPEntry :=
  make_entry container_dn
    [("objectclass", PyList ["nsContainer"; "top"]);
     ("cn", PyList ["altou"])].

(** Lines 132-150 of [pre_callback]: probe the container, create it when
    the probe does not find it. *)
Definition EnsureContainer (container_dn : DN) : prog unit :=
  try_except
    (get_entry container_dn ["objectclass"] ;; Return tt)
    (fun e =>
       match e with
       | NotFound _ =>
           try_except
             (add_entry (container_entry container_dn))
             (fun e =>
                match e with
                | DuplicateEntry _ => Return tt
                | _ =>
                    Raise (NotFound
                             (failed_to_create (DN_str container_dn) (errors.str e)))
                end)
       | _ => Raise e
       end).

(** ['CN=altOrganizationalUnit,CN=schema,{api.env.basedn}'] *)
Definition default_objectcategory : string :=
  "CN=altOrganizationalUnit,CN=schema," +:+ DN_str basedn.

(** Lines 152-153 of [pre_callback]. *)
Definition set_objectcategory (entry_attrs : LDAPEntry) : LDAPEntry :=
  if negb (contains "objectcategory" entry_attrs)
  then setitem "objectCategory" (PyStr default_objectcategory) entry_attrs
  else entry_attrs.

(** [ou_add.pre_callback].  The entry is updated in place by the source;
    here the updated entry is returned next to the DN.  ([dn] is a [DN] by
    its type, so the assertion on line 129 holds.) *)
Definition pre_callback (dn : DN) (entry_attrs : LDAPEntry) : prog (DN * LDAPEntry) :=
  let container_dn := DN_join ou.container_dn basedn in
  EnsureContainer container_dn ;;
  let entry_attrs := set_objectcategory entry_attrs in
  Return (dn, entry_attrs).

End ou_add.

(** The host's create command, as far as the hook is concerned.

    Modelled from the spec: [LDAPCreate.execute] belongs to the host
    framework; the spec's CreateChildEntry runs the hook (steps 1 and 2) and
    then delegates the write of the child entry, under the DN the hook
    returned (step 3). *)
Definition CreateChildEntry (basedn dn : DN) (entry_attrs : LDAPEntry) : prog DN :=
  r ← pre_callback basedn dn entry_attrs;
  add_entry {| dn := r.1; attrs := attrs r.2 |} ;;
  Return r.1.

(** ** Running a program against a directory client *)

(** Modelled from the spec: the directory client of the host framework,
    [get_entry(dn, attrs) -> Entry | NotFound] and
    [add_entry(Entry) -> void | DuplicateEntry | OtherError].  A client
    answers the two calls from a state of its own; nothing is assumed about
    its answers. *)
Record client (W : Type) : Type := mkClient {
  on_get_entry : DN -> list string -> W -> result LDAPEntry * W;
  on_add_entry : LDAPEntry -> W -> result unit * W
}.
Arguments on_get_entry {W} c d attrs_list w.
Arguments on_add_entry {W} c entry w.

(** The outcome of a run: what the program returned or raised, the client's
    state afterwards and the calls that were issued, in order. *)
Record outcome (W A : Type) : Type := mkOutcome {
  res : result A;
  world : W;
  trace : list call
}.
Arguments mkOutcome {W A} res world trace.
Arguments res {W A} o.
Arguments world {W A} o.
Arguments trace {W A} o.

Definition issued {W A} (c : call) (o : outcome W A) : outcome W A :=
  mkOutcome (res o) (world o) (c :: trace o).

Fixpoint run {W A} (ldap : client W) (p : prog A) (w : W) : outcome W A :=
  match p with
  | Return a => mkOutcome (Ok a) w []
  | Raise e => mkOutcome (Err e) w []
  | Get_entry d l k =>
      let r := on_get_entry ldap d l w in
      issued (GetEntry d l) (run ldap (k r.1) r.2)
  | Add_entry entry k =>
      let r := on_add_entry ldap entry w in
      issued (AddEntry entry) (run ldap (k r.1) r.2)
  end.

Definition is_write (c : call) : bool :=
  match c with
  | AddEntry _ => true
  | GetEntry _ _ => false
  end.

(** The number of directory writes in a trace. *)
Definition writes (t : list call) : nat := length (List.filter is_write t).

(** ** A reference directory *)

(** Modelled from the spec: the directory service is outside the plugin.
    For the claims that speak of what ends up in the directory it is taken
    to be a list of entries
    ([entries]), together with the writes of other callers that reach the
    server after this caller's probe and before its own write
    ([concurrent]), and the failure, if any, with which the server answers
    a write ([write_error]). *)
Record directory : Type := mkDirectory {
  entries : list LDAPEntry;
  concurrent : list LDAPEntry;
  write_error : option exn
}.

Definition find_entry (d : DN) (es : list LDAPEntry) : option LDAPEntry :=
  List.find (fun e => bool_decide (dn e = d)) es.

(** A write lands unless an entry with the same DN is there already. *)
Definition store (e : LDAPEntry) (es : list LDAPEntry) : list LDAPEntry :=
  match find_entry (dn e) es with
  | Some _ => es
  | None => es ++ [e]
  end.

Definition commit (new es : list LDAPEntry) : list LDAPEntry :=
  foldl (fun acc e => store e acc) es new.

(** The entry as a read returns it: only the requested attributes. *)
Definition only (attrs_list : list string) (e : LDAPEntry) : LDAPEntry :=
  {| dn := dn e;
     attrs := filter (fun kv => kv.1 ∈ lower <$> attrs_list) (attrs e) |}.

Definition directory_get_entry (d : DN) (attrs_list : list string) (w : directory)
  : result LDAPEntry * directory :=
  match find_entry d (entries w) with
  | Some e => (Ok (only attrs_list e), w)
  | None => (Err (NotFound "no such entry"), w)
  end.

Definition directory_add_entry (e : LDAPEntry) (w : directory)
  : result unit * directory :=
  let es := commit (concurrent w) (entries w) in
  match write_error w with
  | Some x => (Err x, mkDirectory es [] (write_error w))
  | None =>
      match find_entry (dn e) es with
      | Some _ => (Err (DuplicateEntry "This entry already exists"),
                   mkDirectory es [] None)
      | None => (Ok tt, mkDirectory (es ++ [e]) [] None)
      end
  end.

Definition directory_client : client directory :=
  {| on_get_entry := directory_get_entry; on_add_entry := directory_add_entry |}.

(** The number of entries under a DN. *)
Definition count_at (d : DN) (es : list LDAPEntry) : nat :=
  length (filter (fun e => dn e = d) es).

(** ** The deployment of the specification's scenarios *)

(** [dc=example,dc=com] *)
Definition example_basedn : DN := [("dc", "example"); ("dc", "com")].

Definition empty_directory : directory := mkDirectory [] [] None.

(** [cn=altou,dc=example,dc=com] *)
Definition example_container : DN := DN_join ou.container_dn example_basedn.

(** The child entry of the scenarios: [ou=Engineering], nothing else. *)
Definition engineering : LDAPEntry :=
  make_entry (("ou", "Engineering") :: example_container)
    [("ou", PyStr "Engineering")].

(** The same entry with an object category supplied by the caller. *)
Definition categorised : LDAPEntry :=
  setitem "ObjectCategory" (PyStr "CN=custom,CN=schema,dc=example,dc=com") engineering.

(** A directory in which the container has been provisioned. *)
Definition provisioned : directory :=
  mkDirectory [container_entry example_container] [] None.

(** A directory in which another caller creates the container between this
    caller's probe and its write. *)
Definition racing : directory :=
  mkDirectory [] [container_entry example_container] None.

(** A client whose server cannot be reached: every call fails. *)
Definition unreachable : client unit :=
  {| on_get_entry := fun _ _ w => (Err (OtherError "cannot connect"), w);
     on_add_entry := fun _ w => (Err (OtherError "cannot connect"), w) |}.

(** A directory whose server fails every write. *)
Definition failing : directory :=
  mkDirectory [] [] (Some (OtherError "I/O error")).

(** The DN a directory call is about. *)
Definition call_dn (c : call) : DN :=
  match c with
  | GetEntry d _ => d
  | AddEntry entry => dn entry
  end.

(** ** Concurrent callers *)

(** One directory call of a program: the call is answered and the program
    goes on; a program that has returned or raised stays as it is. *)
Definition step {W A} (ldap : client W) (p : prog A) (w : W) : prog A * W :=
  match p with
  | Get_entry d l k =>
      let r := on_get_entry ldap d l w in (k r.1, r.2)
  | Add_entry entry k =>
      let r := on_add_entry ldap entry w in (k r.1, r.2)
  | _ => (p, w)
  end.

(** Two requests served at the same time.  Every directory call is one
    round trip, so the calls of the two programs are interleaved in some
    order: the schedule says whose call comes next ([true] for the first
    program); when the schedule is used up, what is left of the first
    program runs, then what is left of the second. *)
Fixpoint run2 {W A B} (ldap : client W) (schedule : list bool)
    (p : prog A) (q : prog B) (w : W) : result A * result B * W :=
  match schedule with
  | [] =>
      let o := run ldap p w in
      let o' := run ldap q (world o) in
      (res o, res o', world o')
  | true :: schedule' =>
      let s := step ldap p w in run2 ldap schedule' s.1 q s.2
  | false :: schedule' =>
      let s := step ldap q w in run2 ldap schedule' p s.1 s.2
  end.

(** Lines 140-150 of [pre_callback]: what is left of [EnsureContainer] once
    the probe has raised [NotFound]. *)
Definition EnsureContainer_write (container_dn : DN) : prog unit :=
  try_except
    (add_entry (container_entry container_dn))
    (fun e =>
       match e with
       | DuplicateEntry _ => Return tt
       | _ =>
           Raise (NotFound
                    (failed_to_create (DN_str container_dn) (errors.str e)))
       end).

(** Where a caller of [EnsureContainer] can be: before the probe, between
    a probe that found nothing and the write, or done, and then the
    container is in the directory. *)
Definition in_flight (C : DN) (p : prog unit) (w : directory) : Prop :=
  p = EnsureContainer C
  \/ p = EnsureContainer_write C
  \/ (p = Return tt /\ C ∈ dn <$> entries w).

(** A directory that accepts writes and holds no two entries under one DN. *)
Definition healthy (w : directory) : Prop :=
  write_error w = None /\ NoDup (dn <$> entries w).

(** * Properties *)

(** ** Entries *)

Lemma lower_objectCategory : lower "objectCategory" = "objectcategory".
Proof. reflexivity. Qed.

Lemma getitem_setitem name value entry :
  getitem name (setitem name value entry) = Some (as_list value).
Proof. unfold getitem, setitem; simpl. apply lookup_insert_eq. Qed.

Lemma getitem_setitem_same name name' value entry :
  lower name' = lower name ->
  getitem name' (setitem name value entry) = Some (as_list value).
Proof.
  intros Hl. unfold getitem, setitem; simpl. rewrite Hl. apply lookup_insert_eq.
Qed.

Lemma getitem_setitem_other name name' value entry :
  lower name' <> lower name ->
  getitem name' (setitem name value entry) = getitem name' entry.
Proof.
  intros Hl. unfold getitem, setitem; simpl. by rewrite lookup_insert_ne.
Qed.

Lemma contains_getitem name entry :
  contains name entry = true <-> is_Some (getitem name entry).
Proof.
  unfold contains, getitem.
  destruct (attrs entry !! lower name); split; intros H;
    first [done | by eexists | by destruct H].
Qed.

Lemma contains_same_lower name name' entry :
  lower name = lower name' -> contains name entry = contains name' entry.
Proof. unfold contains. by intros ->. Qed.

Lemma dn_setitem name value entry : dn (setitem name value entry) = dn entry.
Proof. reflexivity. Qed.

Lemma dn_make_entry d kwargs : dn (make_entry d kwargs) = d.
Proof.
  unfold make_entry.
  assert (forall e : LDAPEntry,
             dn (foldl (fun entry kw => setitem kw.1 kw.2 entry) e kwargs) = dn e)
    as H; [|by rewrite H].
  induction kwargs as [|kw kwargs IH]; intros e; simpl; [done|].
  by rewrite IH.
Qed.

Lemma dn_container_entry C : dn (container_entry C) = C.
Proof. apply dn_make_entry. Qed.

(** ** Runs *)

Section runs.

Context {W : Type} (ldap : client W).

(** A run of [p ≫= f] is a run of [p] followed, when [p] returns, by a run
    of [f] on what it returned. *)
Lemma run_bind {A B} (p : prog A) (f : A -> prog B) (w : W) :
  run ldap (p ≫= f) w =
  match res (run ldap p w) with
  | Ok a =>
      let o' := run ldap (f a) (world (run ldap p w)) in
      mkOutcome (res o') (world o') (trace (run ldap p w) ++ trace o')
  | Err e => mkOutcome (Err e) (world (run ldap p w)) (trace (run ldap p w))
  end.
Proof.
  unfold mbind, prog_bind. revert w.
  induction p as [a|e|d l k IH|entry k IH]; intros w; simpl.
  - by destruct (run ldap (f a) w).
  - done.
  - rewrite IH. by destruct (res (run ldap (k _) _)).
  - rewrite IH. by destruct (res (run ldap (k _) _)).
Qed.

(** What [EnsureContainer] does, by the answers of the directory. *)
Lemma run_EnsureContainer (C : DN) (w : W) :
  run ldap (EnsureContainer C) w =
  let probe := on_get_entry ldap C ["objectclass"] w in
  match probe.1 with
  | Ok _ => mkOutcome (Ok tt) probe.2 [GetEntry C ["objectclass"]]
  | Err (NotFound _) =>
      let write := on_add_entry ldap (container_entry C) probe.2 in
      mkOutcome
        match write.1 with
        | Ok _ => Ok tt
        | Err (DuplicateEntry _) => Ok tt
        | Err e => Err (NotFound (failed_to_create (DN_str C) (errors.str e)))
        end
        write.2
        [GetEntry C ["objectclass"]; AddEntry (container_entry C)]
  | Err e => mkOutcome (Err e) probe.2 [GetEntry C ["objectclass"]]
  end.
Proof.
  unfold EnsureContainer; simpl.
  destruct (on_get_entry ldap C ["objectclass"] w) as [[entry|[r|m|m]] w1]; simpl; try done.
  destruct (on_add_entry ldap (container_entry C) w1) as [[[]|[r'|m|m]] w2]; simpl; done.
Qed.

(** The hook is [EnsureContainer] on [cn=altou,<basedn>], then the default. *)
Lemma run_pre_callback (basedn d : DN) (entry_attrs : LDAPEntry) (w : W) :
  run ldap (pre_callback basedn d entry_attrs) w =
  let o := run ldap (EnsureContainer (DN_join ou.container_dn basedn)) w in
  mkOutcome
    match res o with
    | Ok _ => Ok (d, set_objectcategory basedn entry_attrs)
    | Err e => Err e
    end
    (world o) (trace o).
Proof.
  unfold pre_callback. cbv zeta. rewrite run_bind.
  destruct (run ldap (EnsureContainer (DN_join ou.container_dn basedn)) w)
    as [[[]|e] w' t]; simpl; [by rewrite app_nil_r|done].
Qed.

End runs.

Section create.

Context {W : Type} (ldap : client W).

(** The create command: the hook's calls, then, when the hook returns, the
    write of the child entry. *)
Lemma run_CreateChildEntry (basedn d : DN) (entry_attrs : LDAPEntry) (w : W) :
  run ldap (CreateChildEntry basedn d entry_attrs) w =
  let o := run ldap (pre_callback basedn d entry_attrs) w in
  match res o with
  | Ok r =>
      let child := {| dn := r.1; attrs := attrs r.2 |} in
      let write := on_add_entry ldap child (world o) in
      mkOutcome
        match write.1 with
        | Ok _ => Ok r.1
        | Err e => Err e
        end
        write.2 (trace o ++ [AddEntry child])
  | Err e => mkOutcome (Err e) (world o) (trace o)
  end.
Proof.
  unfold CreateChildEntry. rewrite run_bind. cbv zeta.
  destruct (run ldap (pre_callback basedn d entry_attrs) w) as [[r|e] w' t];
    simpl; [|done].
  destruct (on_add_entry ldap {| dn := r.1; attrs := attrs r.2 |} w')
    as [[[]|e] w'']; done.
Qed.

(** C7.  The probe of [EnsureContainer] is a read of the container DN that
    asks for the [objectclass] attribute only; when the read finds the
    entry, [EnsureContainer] returns successfully, the probe is the only
    call it has issued (so no write), and the directory is as the probe
    left it. *)
Theorem EnsureContainer_found_noop (C : DN) (w w1 : W) (entry : LDAPEntry) :
  on_get_entry ldap C ["objectclass"] w = (Ok entry, w1) ->
  run ldap (EnsureContainer C) w
  = mkOutcome (Ok tt) w1 [GetEntry C ["objectclass"]]
  /\ writes (trace (run ldap (EnsureContainer C) w)) = 0.
Proof.
  intros Hprobe. rewrite run_EnsureContainer, Hprobe. by split.
Qed.

(** C9.  Whatever the directory answers, the hook issues the probe read
    first, then one write of the container entry exactly when the probe
    raised [NotFound], and nothing else: at most two calls, at most one of
    them a write. *)
Theorem pre_callback_round_trips (basedn d : DN) (entry_attrs : LDAPEntry) (w : W) :
  let C := DN_join ou.container_dn basedn in
  let t := trace (run ldap (pre_callback basedn d entry_attrs) w) in
  t = GetEntry C ["objectclass"] ::
      match (on_get_entry ldap C ["objectclass"] w).1 with
      | Err (NotFound _) => [AddEntry (container_entry C)]
      | _ => []
      end
  /\ length t <= 2
  /\ writes t <= 1.
Proof.
  cbv zeta. rewrite run_pre_callback, run_EnsureContainer. cbv zeta.
  destruct (on_get_entry ldap (DN_join ou.container_dn basedn) ["objectclass"] w)
    as [[entry|[r|m|m]] w1]; simpl; repeat split; first [done | unfold writes; simpl; lia].
Qed.

(** C2.  When the probe does not find the container and the write of the
    container raises [DuplicateEntry], [EnsureContainer] returns
    successfully, the hook returns the DN with the pre-processed entry, and
    the create command goes on to write the child entry. *)
Theorem duplicate_container_suppressed
    (basedn d : DN) (entry_attrs : LDAPEntry) (w w1 w2 : W) (reason message : string) :
  let C := DN_join ou.container_dn basedn in
  on_get_entry ldap C ["objectclass"] w = (Err (NotFound reason), w1) ->
  on_add_entry ldap (container_entry C) w1 = (Err (DuplicateEntry message), w2) ->
  res (run ldap (EnsureContainer C) w) = Ok tt
  /\ res (run ldap (pre_callback basedn d entry_attrs) w)
     = Ok (d, set_objectcategory basedn entry_attrs)
  /\ trace (run ldap (CreateChildEntry basedn d entry_attrs) w)
     = [GetEntry C ["objectclass"]; AddEntry (container_entry C);
        AddEntry {| dn := d; attrs := attrs (set_objectcategory basedn entry_attrs) |}].
Proof.
  intros C Hprobe Hwrite.
  assert (run ldap (EnsureContainer C) w
          = mkOutcome (Ok tt) w2
              [GetEntry C ["objectclass"]; AddEntry (container_entry C)]) as HE.
  { rewrite run_EnsureContainer. cbv zeta. rewrite Hprobe. simpl.
    by rewrite Hwrite. }
  assert (run ldap (pre_callback basedn d entry_attrs) w
          = mkOutcome (Ok (d, set_objectcategory basedn entry_attrs)) w2
              [GetEntry C ["objectclass"]; AddEntry (container_entry C)]) as HP.
  { rewrite run_pre_callback. cbv zeta. fold C. by rewrite HE. }
  split; [by rewrite HE|]. split; [by rewrite HP|].
  rewrite run_CreateChildEntry. cbv zeta. by rewrite HP.
Qed.

(** C3.  When the probe does not find the container and the write of the
    container raises anything but [DuplicateEntry], the create command
    raises [NotFound] with the reason
    [Failed to create container <container DN>: <cause>], and the calls
    issued are the probe and the container write only: the child entry is
    not written. *)
Theorem container_failure_is_NotFound
    (basedn d : DN) (entry_attrs : LDAPEntry) (w w1 w2 : W) (reason : string) (e : exn) :
  let C := DN_join ou.container_dn basedn in
  on_get_entry ldap C ["objectclass"] w = (Err (NotFound reason), w1) ->
  on_add_entry ldap (container_entry C) w1 = (Err e, w2) ->
  (forall message, e <> DuplicateEntry message) ->
  let failure :=
    NotFound ("Failed to create container " +:+ DN_str C +:+ ": " +:+ errors.str e) in
  res (run ldap (pre_callback basedn d entry_attrs) w) = Err failure
  /\ run ldap (CreateChildEntry basedn d entry_attrs) w
     = mkOutcome (Err failure) w2
         [GetEntry C ["objectclass"]; AddEntry (container_entry C)].
Proof.
  intros C Hprobe Hwrite Hcause failure.
  assert (run ldap (EnsureContainer C) w
          = mkOutcome (Err failure) w2
              [GetEntry C ["objectclass"]; AddEntry (container_entry C)]) as HE.
  { rewrite run_EnsureContainer. cbv zeta. rewrite Hprobe. simpl.
    rewrite Hwrite. simpl.
    destruct e as [r|m|m]; [done| |done]. by destruct (Hcause m). }
  assert (run ldap (pre_callback basedn d entry_attrs) w
          = mkOutcome (Err failure) w2
              [GetEntry C ["objectclass"]; AddEntry (container_entry C)]) as HP.
  { rewrite run_pre_callback. cbv zeta. fold C. by rewrite HE. }
  split; [by rewrite HP|].
  rewrite run_CreateChildEntry. cbv zeta. by rewrite HP.
Qed.

End create.

(** ** The default object category *)

Lemma set_objectcategory_absent basedn entry_attrs :
  contains "objectcategory" entry_attrs = false ->
  set_objectcategory basedn entry_attrs
  = setitem "objectCategory" (PyStr (default_objectcategory basedn)) entry_attrs.
Proof. unfold set_objectcategory. by intros ->. Qed.

Lemma set_objectcategory_present basedn entry_attrs :
  contains "objectcategory" entry_attrs = true ->
  set_objectcategory basedn entry_attrs = entry_attrs.
Proof. unfold set_objectcategory. by intros ->. Qed.

Lemma set_objectcategory_other basedn entry_attrs key :
  lower key <> "objectcategory" ->
  getitem key (set_objectcategory basedn entry_attrs) = getitem key entry_attrs.
Proof.
  intros Hkey. unfold set_objectcategory.
  destruct (contains "objectcategory" entry_attrs); simpl; [done|].
  by apply getitem_setitem_other.
Qed.

Section hook.

Context {W : Type} (ldap : client W).

(** What the hook returns when it returns. *)
Lemma pre_callback_returns basedn d entry_attrs (w : W) d' entry_attrs' :
  res (run ldap (pre_callback basedn d entry_attrs) w) = Ok (d', entry_attrs') ->
  d' = d /\ entry_attrs' = set_objectcategory basedn entry_attrs.
Proof.
  rewrite run_pre_callback. cbv zeta.
  destruct (run ldap (EnsureContainer (DN_join ou.container_dn basedn)) w)
    as [[[]|e] w' t]; simpl; intros H; by simplify_eq.
Qed.

(** C4.  When the entry has no [objectcategory] attribute and the hook
    returns, the entry's object category (under any spelling of the name)
    is the single value [CN=altOrganizationalUnit,CN=schema,<basedn>]. *)
Theorem objectcategory_defaulted
    (basedn d : DN) (entry_attrs : LDAPEntry) (w : W)
    (d' : DN) (entry_attrs' : LDAPEntry) (key : string) :
  contains "objectcategory" entry_attrs = false ->
  res (run ldap (pre_callback basedn d entry_attrs) w) = Ok (d', entry_attrs') ->
  lower key = "objectcategory" ->
  getitem key entry_attrs'
  = Some ["CN=altOrganizationalUnit,CN=schema," +:+ DN_str basedn].
Proof.
  intros Habsent Hret Hkey.
  apply pre_callback_returns in Hret as [_ ->].
  rewrite set_objectcategory_absent by done.
  by rewrite getitem_setitem_same.
Qed.

(** C5.  When the entry already has an object category, under whatever
    spelling of the attribute name, and the hook returns, the entry is
    exactly as it was passed; in particular the supplied value is still
    there. *)
Theorem objectcategory_preserved
    (basedn d : DN) (entry_attrs : LDAPEntry) (w : W)
    (d' : DN) (entry_attrs' : LDAPEntry) (key : string) (value : list string) :
  lower key = "objectcategory" ->
  getitem key entry_attrs = Some value ->
  res (run ldap (pre_callback basedn d entry_attrs) w) = Ok (d', entry_attrs') ->
  entry_attrs' = entry_attrs /\ getitem key entry_attrs' = Some value.
Proof.
  intros Hkey Hvalue Hret.
  apply pre_callback_returns in Hret as [_ ->].
  rewrite set_objectcategory_present; [done|].
  rewrite <- (contains_same_lower key) by done.
  apply contains_getitem. by exists value.
Qed.

(** C8.  When the hook returns, every attribute other than the object
    category reads as it did before: the same value, or absent as before;
    the entry's own DN is unchanged too. *)
Theorem other_attributes_untouched
    (basedn d : DN) (entry_attrs : LDAPEntry) (w : W)
    (d' : DN) (entry_attrs' : LDAPEntry) (key : string) :
  lower key <> "objectcategory" ->
  res (run ldap (pre_callback basedn d entry_attrs) w) = Ok (d', entry_attrs') ->
  getitem key entry_attrs' = getitem key entry_attrs
  /\ contains key entry_attrs' = contains key entry_attrs
  /\ dn entry_attrs' = dn entry_attrs.
Proof.
  intros Hkey Hret.
  apply pre_callback_returns in Hret as [_ ->].
  assert (getitem key (set_objectcategory basedn entry_attrs)
          = getitem key entry_attrs) as Hget
    by by apply set_objectcategory_other.
  split; [done|]. split.
  - unfold contains. unfold getitem in Hget. by rewrite Hget.
  - unfold set_objectcategory. by destruct (contains "objectcategory" entry_attrs).
Qed.

(** C10.  Whenever the hook returns, the DN it returns is the [dn] argument
    it was given. *)
Theorem pre_callback_returns_dn
    (basedn d : DN) (entry_attrs : LDAPEntry) (w : W)
    (d' : DN) (entry_attrs' : LDAPEntry) :
  res (run ldap (pre_callback basedn d entry_attrs) w) = Ok (d', entry_attrs') ->
  d' = d.
Proof. intros Hret. by apply pre_callback_returns in Hret as [-> _]. Qed.

(** C6.  When the probe does not find the container, [EnsureContainer]
    issues one write, of an entry whose DN is [cn=altou] followed by the base
    DN, whose object classes are [nsContainer] and [top], whose [cn] is
    [altou], and which has no other attribute. *)
Theorem container_entry_created (basedn : DN) (w w1 : W) (reason : string) :
  let C := DN_join ou.container_dn basedn in
  on_get_entry ldap C ["objectclass"] w = (Err (NotFound reason), w1) ->
  trace (run ldap (EnsureContainer C) w)
  = [GetEntry C ["objectclass"]; AddEntry (container_entry C)]
  /\ dn (container_entry C) = ("cn", "altou") :: basedn
  /\ getitem "objectclass" (container_entry C) = Some ["nsContainer"; "top"]
  /\ getitem "cn" (container_entry C) = Some ["altou"]
  /\ dom (attrs (container_entry C)) = {[ "objectclass"; "cn" ]}.
Proof.
  intros C Hprobe. split.
  { rewrite run_EnsureContainer. cbv zeta. by rewrite Hprobe. }
  split; [by rewrite dn_container_entry|].
  assert (attrs (container_entry C)
          = <["cn" := ["altou"]]> (<["objectclass" := ["nsContainer"; "top"]]> ∅))
    as Hattrs by reflexivity.
  unfold getitem. rewrite Hattrs.
  split; [done|]. split; [done|].
  rewrite dom_insert_L, dom_insert_L, dom_empty_L. set_solver.
Qed.

End hook.

(** ** The reference directory *)

Lemma find_entry_cons d e es :
  find_entry d (e :: es) = if decide (dn e = d) then Some e else find_entry d es.
Proof.
  unfold find_entry; simpl. destruct (decide (dn e = d)) as [Heq|Hne].
  - by rewrite bool_decide_eq_true_2.
  - by rewrite bool_decide_eq_false_2.
Qed.

Lemma find_entry_None d es : find_entry d es = None <-> d ∉ dn <$> es.
Proof.
  induction es as [|e es IH].
  - split; [intros _; apply not_elem_of_nil | done].
  - rewrite find_entry_cons, fmap_cons, not_elem_of_cons.
    destruct (decide (dn e = d)) as [Heq|Hne].
    + split; [done | by intros [? _]].
    + rewrite IH. split; [by intros ? | by intros [_ ?]].
Qed.

Lemma find_entry_is_Some d es : is_Some (find_entry d es) <-> d ∈ dn <$> es.
Proof.
  rewrite <- not_eq_None_Some, find_entry_None.
  split; [apply dec_stable | by intros ? ?].
Qed.

Lemma store_NoDup e es : NoDup (dn <$> es) -> NoDup (dn <$> store e es).
Proof.
  intros Hes. unfold store. destruct (find_entry (dn e) es) eqn:Hfind; [done|].
  apply find_entry_None in Hfind.
  rewrite fmap_app. apply NoDup_app. repeat split; [done| |apply NoDup_singleton].
  intros d Hd ->%list_elem_of_singleton. done.
Qed.

Lemma store_mono d e es : d ∈ dn <$> es -> d ∈ dn <$> store e es.
Proof.
  intros Hd. unfold store. destruct (find_entry (dn e) es); [done|].
  rewrite fmap_app. apply elem_of_app. by left.
Qed.

Lemma commit_NoDup new es : NoDup (dn <$> es) -> NoDup (dn <$> commit new es).
Proof.
  unfold commit. revert es.
  induction new as [|e new IH]; intros es Hes; simpl; [done|].
  by apply IH, store_NoDup.
Qed.

Lemma commit_mono d new es : d ∈ dn <$> es -> d ∈ dn <$> commit new es.
Proof.
  unfold commit. revert es.
  induction new as [|e new IH]; intros es Hes; simpl; [done|].
  by apply IH, store_mono.
Qed.

Lemma count_at_absent d es : d ∉ dn <$> es -> count_at d es = 0.
Proof.
  unfold count_at. induction es as [|e es IH]; [done|].
  rewrite fmap_cons, not_elem_of_cons. intros [Hne Hes].
  rewrite filter_cons_False by done. by apply IH.
Qed.

(** In a directory that holds no two entries under one DN, a DN that is
    there is there once. *)
Lemma count_at_present d es :
  NoDup (dn <$> es) -> d ∈ dn <$> es -> count_at d es = 1.
Proof.
  unfold count_at. induction es as [|e es IH]; [by rewrite fmap_nil, elem_of_nil|].
  rewrite fmap_cons, NoDup_cons, elem_of_cons. intros [Hfresh Hes] Hd.
  destruct (decide (dn e = d)) as [<-|Hne].
  - rewrite filter_cons_True by done. simpl.
    by rewrite (count_at_absent (dn e) es Hfresh : length (filter _ _) = 0).
  - rewrite filter_cons_False by done. apply IH; [done|]. by destruct Hd.
Qed.

(** When the container is there, [EnsureContainer] reads it and is done. *)
Lemma directory_found (C : DN) (w : directory) :
  C ∈ dn <$> entries w ->
  run directory_client (EnsureContainer C) w
  = mkOutcome (Ok tt) w [GetEntry C ["objectclass"]].
Proof.
  intros HC. rewrite run_EnsureContainer. cbv zeta. simpl.
  unfold directory_get_entry.
  apply find_entry_is_Some in HC as [e ->]. done.
Qed.

(** When the server accepts writes, [EnsureContainer] succeeds and the
    container is there afterwards. *)
Lemma directory_ensured (C : DN) (w : directory) :
  write_error w = None ->
  NoDup (dn <$> entries w) ->
  let o := run directory_client (EnsureContainer C) w in
  res o = Ok tt
  /\ NoDup (dn <$> entries (world o))
  /\ C ∈ dn <$> entries (world o).
Proof.
  intros Hok Hw. cbv zeta.
  destruct (find_entry C (entries w)) as [e|] eqn:Hprobe.
  { assert (C ∈ dn <$> entries w) as HC
      by (apply find_entry_is_Some; by exists e).
    by rewrite directory_found. }
  rewrite run_EnsureContainer. cbv zeta. simpl.
  unfold directory_get_entry. rewrite Hprobe. simpl.
  unfold directory_add_entry. rewrite Hok, dn_container_entry.
  pose proof (commit_NoDup (concurrent w) (entries w) Hw) as Hes.
  destruct (find_entry C (commit (concurrent w) (entries w))) as [e|] eqn:Hwrite;
    simpl.
  - repeat split; [done|]. apply find_entry_is_Some. by exists e.
  - apply find_entry_None in Hwrite.
    rewrite fmap_app.
    change (dn <$> [container_entry C]) with [dn (container_entry C)].
    rewrite dn_container_entry. repeat split.
    + apply NoDup_app. repeat split; [done| |apply NoDup_singleton].
      intros d Hd ->%list_elem_of_singleton. done.
    + apply elem_of_app. right. by apply list_elem_of_singleton.
Qed.

(** What a lookup finds after a write: the entry that was there, and
    otherwise the one written. *)
Lemma find_entry_app d es es' :
  find_entry d (es ++ es')
  = match find_entry d es with Some x => Some x | None => find_entry d es' end.
Proof.
  induction es as [|e es IH]; [done|].
  rewrite <- app_comm_cons, !find_entry_cons.
  by destruct (decide (dn e = d)).
Qed.

Lemma find_entry_store d e es :
  find_entry d (store e es)
  = match find_entry d es with
    | Some x => Some x
    | None => if decide (dn e = d) then Some e else None
    end.
Proof.
  unfold store. destruct (find_entry (dn e) es) as [x|] eqn:Hfind.
  - destruct (find_entry d es) as [y|] eqn:Hd; [done|].
    destruct (decide (dn e = d)) as [<-|Hne]; [congruence | done].
  - rewrite find_entry_app, find_entry_cons.
    by destruct (find_entry d es), (decide (dn e = d)).
Qed.

(** Of the writes of other callers, the first under a DN is the one that
    lands, unless the DN was taken already. *)
Lemma find_entry_commit d new es :
  find_entry d (commit new es)
  = match find_entry d es with Some x => Some x | None => find_entry d new end.
Proof.
  unfold commit. revert es.
  induction new as [|e new IH]; intros es; cbn [foldl].
  - by destruct (find_entry d es).
  - rewrite IH, find_entry_store, find_entry_cons.
    by destruct (find_entry d es), (decide (dn e = d)).
Qed.

Lemma find_entry_dn d es e : find_entry d es = Some e -> dn e = d.
Proof.
  induction es as [|x es IH]; [done|].
  rewrite find_entry_cons. destruct (decide (dn x = d)); [congruence | done].
Qed.

(** The attributes of the container entry. *)
Lemma container_entry_attrs C :
  getitem "objectclass" (container_entry C) = Some ["nsContainer"; "top"]
  /\ getitem "cn" (container_entry C) = Some ["altou"]
  /\ dom (attrs (container_entry C)) = {[ "objectclass"; "cn" ]}.
Proof.
  assert (attrs (container_entry C)
          = <["cn" := ["altou"]]> (<["objectclass" := ["nsContainer"; "top"]]> ∅))
    as Hattrs by reflexivity.
  unfold getitem. rewrite Hattrs.
  split; [done|]. split; [done|].
  rewrite dom_insert_L, dom_insert_L, dom_empty_L. set_solver.
Qed.

(** The entry under [C] after [EnsureContainer C]: the one that was there;
    otherwise the one another caller wrote in the meantime; otherwise the
    container entry written by this call. *)
Lemma directory_ensured_entry (C : DN) (w : directory) :
  write_error w = None ->
  find_entry C (entries (world (run directory_client (EnsureContainer C) w)))
  = Some (match find_entry C (entries w), find_entry C (concurrent w) with
          | Some e, _ => e
          | None, Some e => e
          | None, None => container_entry C
          end).
Proof.
  intros Hok.
  destruct (find_entry C (entries w)) as [e|] eqn:Hprobe.
  { assert (C ∈ dn <$> entries w) as HC
      by (apply find_entry_is_Some; by exists e).
    by rewrite directory_found. }
  rewrite run_EnsureContainer. cbv zeta. simpl.
  unfold directory_get_entry. rewrite Hprobe. simpl.
  unfold directory_add_entry.
  rewrite Hok, dn_container_entry, find_entry_commit, Hprobe.
  destruct (find_entry C (concurrent w)) as [e|] eqn:Hother; simpl.
  - by rewrite find_entry_commit, Hprobe.
  - rewrite find_entry_app, find_entry_commit, Hprobe, Hother, find_entry_cons.
    by rewrite decide_True by apply dn_container_entry.
Qed.

(** C1.  In a directory that accepts writes, [EnsureContainer C] called
    twice in a row succeeds both times; afterwards there is exactly one
    entry under [C], and it is a container entry: the entry that was under
    [C] before, kept as it was; otherwise the one another caller created in
    the meantime; otherwise the entry this call created, whose attributes
    are the object classes [nsContainer] and [top] and the name [altou] and
    nothing else.  The second call issues the probe only and leaves the
    directory as the first call left it. *)
Theorem EnsureContainer_idempotent (C : DN) (w : directory) :
  write_error w = None ->
  NoDup (dn <$> entries w) ->
  let first := run directory_client (EnsureContainer C) w in
  let second := run directory_client (EnsureContainer C) (world first) in
  res first = Ok tt
  /\ res second = Ok tt
  /\ count_at C (entries (world second)) = 1
  /\ (exists e,
        find_entry C (entries (world second)) = Some e
        /\ dn e = C
        /\ match find_entry C (entries w), find_entry C (concurrent w) with
           | Some e0, _ => e = e0
           | None, Some e0 => e = e0
           | None, None =>
               e = container_entry C
               /\ getitem "objectclass" e = Some ["nsContainer"; "top"]
               /\ getitem "cn" e = Some ["altou"]
               /\ dom (attrs e) = {[ "objectclass"; "cn" ]}
           end)
  /\ trace second = [GetEntry C ["objectclass"]]
  /\ world second = world first.
Proof.
  intros Hok Hw first second.
  destruct (directory_ensured C w Hok Hw) as (Hres & Hnodup & HC).
  pose proof (directory_ensured_entry C w Hok) as Hentry.
  fold first in Hres, Hnodup, HC, Hentry.
  subst second. rewrite (directory_found C (world first) HC). cbn [res world trace].
  split; [done|]. split; [done|].
  split; [by apply count_at_present|].
  split; [|done].
  eexists. split; [exact Hentry|].
  split; [by apply (find_entry_dn C (entries (world first))) |].
  destruct (find_entry C (entries w)) as [e0|]; [done|].
  destruct (find_entry C (concurrent w)) as [e0|]; [done|].
  split; [done|]. apply container_entry_attrs.
Qed.

(** * The scenarios of the specification *)

Example example_container_str :
  DN_str example_container = "cn=altou,dc=example,dc=com".
Proof. reflexivity. Qed.

(** Container absent: it is created, and the entry is defaulted. *)
Example scenario_absent :
  let o := run directory_client
             (pre_callback example_basedn (dn engineering) engineering)
             empty_directory in
  res o = Ok (dn engineering,
              setitem "objectCategory"
                (PyStr "CN=altOrganizationalUnit,CN=schema,dc=example,dc=com")
                engineering)
  /\ entries (world o) = [container_entry example_container]
  /\ trace o = [GetEntry example_container ["objectclass"];
                AddEntry (container_entry example_container)].
Proof. repeat split. Qed.

(** Container present: one read, no write. *)
Example scenario_present :
  let o := run directory_client
             (pre_callback example_basedn (dn engineering) engineering)
             provisioned in
  res o = Ok (dn engineering, set_objectcategory example_basedn engineering)
  /\ world o = provisioned
  /\ trace o = [GetEntry example_container ["objectclass"]].
Proof. repeat split. Qed.

(** Another caller wins the race: the duplicate is swallowed. *)
Example scenario_race :
  let o := run directory_client
             (pre_callback example_basedn (dn engineering) engineering)
             racing in
  res o = Ok (dn engineering, set_objectcategory example_basedn engineering)
  /\ world o = provisioned.
Proof. repeat split. Qed.

(** The server fails the write: the create command stops before the child
    entry is written, and the directory is still empty. *)
Example scenario_failure :
  let o := run directory_client
             (CreateChildEntry example_basedn (dn engineering) engineering)
             failing in
  res o = Err (NotFound
                 "Failed to create container cn=altou,dc=example,dc=com: I/O error")
  /\ entries (world o) = [].
Proof. repeat split. Qed.

(** A failure of the probe other than [NotFound] is passed on as it is. *)
Example scenario_probe_error :
  let ldap := {| on_get_entry := fun _ _ (w : unit) => (Err (OtherError "down"), w);
                 on_add_entry := fun _ w => (Ok tt, w) |} in
  let o := run ldap (pre_callback example_basedn (dn engineering) engineering) tt in
  res o = Err (OtherError "down")
  /\ trace o = [GetEntry example_container ["objectclass"]].
Proof. repeat split. Qed.

(** The object category supplied by the caller is kept, whatever the
    spelling of the attribute name. *)
Example scenario_categorised :
  res (run directory_client
         (pre_callback example_basedn (dn categorised) categorised) provisioned)
  = Ok (dn categorised, categorised)
  /\ getitem "objectCategory" categorised
     = Some ["CN=custom,CN=schema,dc=example,dc=com"].
Proof. repeat split. Qed.

Lemma EnsureContainer_idempotent_witness :
  let first := run directory_client (EnsureContainer example_container) empty_directory in
  let second := run directory_client (EnsureContainer example_container) (world first) in
  res first = Ok tt
  /\ res second = Ok tt
  /\ count_at example_container (entries (world second)) = 1
  /\ (exists e,
        find_entry example_container (entries (world second)) = Some e
        /\ dn e = example_container
        /\ e = container_entry example_container
        /\ getitem "objectclass" e = Some ["nsContainer"; "top"]
        /\ getitem "cn" e = Some ["altou"]
        /\ dom (attrs e) = {[ "objectclass"; "cn" ]})
  /\ trace second = [GetEntry example_container ["objectclass"]]
  /\ world second = world first.
Proof.
  apply (EnsureContainer_idempotent example_container empty_directory).
  - reflexivity.
  - simpl. constructor.
Defined.

Lemma duplicate_container_suppressed_witness :
  res (run directory_client (EnsureContainer example_container) racing) = Ok tt
  /\ res (run directory_client
            (pre_callback example_basedn (dn engineering) engineering) racing)
     = Ok (dn engineering, set_objectcategory example_basedn engineering)
  /\ trace (run directory_client
              (CreateChildEntry example_basedn (dn engineering) engineering) racing)
     = [GetEntry example_container ["objectclass"];
        AddEntry (container_entry example_container);
        AddEntry {| dn := dn engineering;
                    attrs := attrs (set_objectcategory example_basedn engineering) |}].
Proof.
  apply (duplicate_container_suppressed directory_client example_basedn
           (dn engineering) engineering racing racing provisioned
           "no such entry" "This entry already exists");
    reflexivity.
Defined.

Lemma container_failure_is_NotFound_witness :
  res (run directory_client
         (pre_callback example_basedn (dn engineering) engineering) failing)
  = Err (NotFound
           "Failed to create container cn=altou,dc=example,dc=com: I/O error")
  /\ run directory_client
       (CreateChildEntry example_basedn (dn engineering) engineering) failing
     = mkOutcome
         (Err (NotFound
                 "Failed to create container cn=altou,dc=example,dc=com: I/O error"))
         failing
         [GetEntry example_container ["objectclass"];
          AddEntry (container_entry example_container)].
Proof.
  apply (container_failure_is_NotFound directory_client example_basedn
           (dn engineering) engineering failing failing failing
           "no such entry" (OtherError "I/O error")).
  - reflexivity.
  - reflexivity.
  - intros message H. discriminate H.
Defined.

Lemma objectcategory_defaulted_witness :
  contains "objectcategory" engineering = false
  /\ getitem "objectCategory" (set_objectcategory example_basedn engineering)
     = Some ["CN=altOrganizationalUnit,CN=schema,dc=example,dc=com"].
Proof.
  split; [reflexivity|].
  apply (objectcategory_defaulted directory_client example_basedn
           (dn engineering) engineering empty_directory
           (dn engineering) (set_objectcategory example_basedn engineering)
           "objectCategory");
    reflexivity.
Defined.

Lemma objectcategory_preserved_witness :
  set_objectcategory example_basedn categorised = categorised
  /\ getitem "objectcategory" (set_objectcategory example_basedn categorised)
     = Some ["CN=custom,CN=schema,dc=example,dc=com"].
Proof.
  apply (objectcategory_preserved directory_client example_basedn
           (dn categorised) categorised empty_directory
           (dn categorised) (set_objectcategory example_basedn categorised)
           "objectcategory" ["CN=custom,CN=schema,dc=example,dc=com"]);
    reflexivity.
Defined.

Lemma container_entry_created_witness :
  trace (run directory_client (EnsureContainer example_container) empty_directory)
  = [GetEntry example_container ["objectclass"];
     AddEntry (container_entry example_container)]
  /\ dn (container_entry example_container)
     = [("cn", "altou"); ("dc", "example"); ("dc", "com")]
  /\ getitem "objectclass" (container_entry example_container)
     = Some ["nsContainer"; "top"]
  /\ getitem "cn" (container_entry example_container) = Some ["altou"]
  /\ dom (attrs (container_entry example_container)) = {[ "objectclass"; "cn" ]}.
Proof.
  apply (container_entry_created directory_client example_basedn
           empty_directory empty_directory "no such entry").
  reflexivity.
Defined.

Lemma EnsureContainer_found_noop_witness :
  run directory_client (EnsureContainer example_container) provisioned
  = mkOutcome (Ok tt) provisioned [GetEntry example_container ["objectclass"]]
  /\ writes (trace (run directory_client (EnsureContainer example_container)
                      provisioned)) = 0.
Proof.
  apply (EnsureContainer_found_noop directory_client example_container
           provisioned provisioned
           (only ["objectclass"] (container_entry example_container))).
  reflexivity.
Defined.

Lemma other_attributes_untouched_witness :
  getitem "description" (set_objectcategory example_basedn engineering)
  = getitem "description" engineering
  /\ contains "description" (set_objectcategory example_basedn engineering)
     = contains "description" engineering
  /\ dn (set_objectcategory example_basedn engineering) = dn engineering.
Proof.
  apply (other_attributes_untouched directory_client example_basedn
           (dn engineering) engineering empty_directory
           (dn engineering) (set_objectcategory example_basedn engineering)
           "description").
  - intros H. discriminate H.
  - reflexivity.
Defined.

Lemma pre_callback_returns_dn_witness :
  res (run directory_client
         (pre_callback example_basedn (dn engineering) engineering) empty_directory)
  = Ok (dn engineering, set_objectcategory example_basedn engineering)
  /\ dn engineering
     = [("ou", "Engineering"); ("cn", "altou"); ("dc", "example"); ("dc", "com")].
Proof.
  split; [reflexivity|].
  apply (pre_callback_returns_dn directory_client example_basedn
           [("ou", "Engineering"); ("cn", "altou"); ("dc", "example"); ("dc", "com")]
           engineering empty_directory
           (dn engineering) (set_objectcategory example_basedn engineering)).
  reflexivity.
Defined.

(** * Further properties of the hook *)

Section outcomes.

Context {W : Type} (ldap : client W).

(** X1.  A failure of the probe other than [NotFound] is not handled: the
    hook raises that very exception, the probe is the only call it has
    issued, and the directory is as the probe left it. *)
Theorem probe_error_propagates
    (basedn d : DN) (entry_attrs : LDAPEntry) (w w1 : W) (e : exn) :
  let C := DN_join ou.container_dn basedn in
  on_get_entry ldap C ["objectclass"] w = (Err e, w1) ->
  (forall reason, e <> NotFound reason) ->
  run ldap (pre_callback basedn d entry_attrs) w
  = mkOutcome (Err e) w1 [GetEntry C ["objectclass"]].
Proof.
  intros C Hprobe Hother.
  rewrite run_pre_callback, run_EnsureContainer. cbv zeta. fold C.
  rewrite Hprobe. simpl.
  destruct e as [r|m|m]; [by destruct (Hother r)|done|done].
Qed.

(** X2.  The hook returns exactly when the probe finds the container, or
    the probe raises [NotFound] and the write of the container either
    succeeds or raises [DuplicateEntry]; in every other case it raises. *)
Theorem pre_callback_returns_iff
    (basedn d : DN) (entry_attrs : LDAPEntry) (w : W) :
  let C := DN_join ou.container_dn basedn in
  let probe := on_get_entry ldap C ["objectclass"] w in
  let write := on_add_entry ldap (container_entry C) probe.2 in
  res (run ldap (pre_callback basedn d entry_attrs) w)
  = Ok (d, set_objectcategory basedn entry_attrs)
  <-> (exists entry, probe.1 = Ok entry)
      \/ ((exists reason, probe.1 = Err (NotFound reason))
          /\ (write.1 = Ok tt \/ exists message, write.1 = Err (DuplicateEntry message))).
Proof.
  cbv zeta. rewrite run_pre_callback, run_EnsureContainer. cbv zeta.
  destruct (on_get_entry ldap (DN_join ou.container_dn basedn) ["objectclass"] w)
    as [[entry|[r|m|m]] w1]; simpl.
  - split; [intros _; left; by exists entry | done].
  - destruct (on_add_entry ldap _ w1) as [[[]|[r'|m|m]] w2]; simpl.
    + split; [intros _; right; split; [by exists r | by left] | done].
    + split; [done|]. intros [[? ?]|[_ [?|[? ?]]]]; done.
    + split; [intros _; right; split; [by exists r | right; by exists m] | done].
    + split; [done|]. intros [[? ?]|[_ [?|[? ?]]]]; done.
  - split; [done|]. intros [[? ?]|[[? ?] _]]; done.
  - split; [done|]. intros [[? ?]|[[? ?] _]]; done.
Qed.

(** X3.  A [NotFound] raised by the probe never leaves the hook: whenever
    the hook raises [NotFound], the probe had raised [NotFound], the write
    of the container has failed, and the reason is
    [Failed to create container <container DN>: <cause of the write>]. *)
Theorem raised_NotFound_is_provisioning_failure
    (basedn d : DN) (entry_attrs : LDAPEntry) (w : W) (reason : string) :
  let C := DN_join ou.container_dn basedn in
  let probe := on_get_entry ldap C ["objectclass"] w in
  let write := on_add_entry ldap (container_entry C) probe.2 in
  res (run ldap (pre_callback basedn d entry_attrs) w) = Err (NotFound reason) ->
  (exists r, probe.1 = Err (NotFound r))
  /\ exists cause,
       write.1 = Err cause
       /\ reason = "Failed to create container " +:+ DN_str C +:+ ": "
                   +:+ errors.str cause.
Proof.
  cbv zeta. rewrite run_pre_callback, run_EnsureContainer. cbv zeta.
  destruct (on_get_entry ldap (DN_join ou.container_dn basedn) ["objectclass"] w)
    as [[entry|[r|m|m]] w1]; simpl; try done.
  destruct (on_add_entry ldap _ w1) as [[[]|cause] w2]; simpl; [done|].
  intros Hraised. split; [by exists r|]. exists cause. split; [done|].
  destruct cause; by simplify_eq.
Qed.

(** X4.  Only the container is ever touched in the directory: every call
    the hook issues is about [cn=altou,<basedn>], whatever the directory
    answers; and the calls, and the state they leave, do not depend on the
    DN or the attributes of the entry being created. *)
Theorem only_container_touched
    (basedn d d' : DN) (entry_attrs entry_attrs' : LDAPEntry) (w : W) :
  let C := DN_join ou.container_dn basedn in
  let o := run ldap (pre_callback basedn d entry_attrs) w in
  let o' := run ldap (pre_callback basedn d' entry_attrs') w in
  Forall (fun c => call_dn c = C) (trace o)
  /\ trace o' = trace o
  /\ world o' = world o.
Proof.
  cbv zeta. rewrite !run_pre_callback. cbv zeta. cbn [trace world].
  split; [|done].
  rewrite run_EnsureContainer. cbv zeta.
  destruct (on_get_entry ldap (DN_join ou.container_dn basedn) ["objectclass"] w)
    as [[entry|[r|m|m]] w1]; simpl; repeat constructor.
Qed.

End outcomes.

Section entry.

Context {W : Type} (ldap : client W).

Lemma contains_set_objectcategory basedn entry_attrs :
  contains "objectcategory" (set_objectcategory basedn entry_attrs) = true.
Proof.
  unfold set_objectcategory.
  destruct (contains "objectcategory" entry_attrs) eqn:Hc; simpl; [done|].
  apply contains_getitem. rewrite getitem_setitem_same by done. by eexists.
Qed.

(** X5.  Whenever the hook returns, the entry has an object category; its
    value is the one it had, or the default if it had none; and the
    attributes of the entry are those it had plus the object category:
    no attribute is ever removed. *)
Theorem objectcategory_present_after
    (basedn d : DN) (entry_attrs : LDAPEntry) (w : W)
    (d' : DN) (entry_attrs' : LDAPEntry) :
  res (run ldap (pre_callback basedn d entry_attrs) w) = Ok (d', entry_attrs') ->
  contains "objectcategory" entry_attrs' = true
  /\ getitem "objectcategory" entry_attrs'
     = match getitem "objectcategory" entry_attrs with
       | Some value => Some value
       | None => Some ["CN=altOrganizationalUnit,CN=schema," +:+ DN_str basedn]
       end
  /\ dom (attrs entry_attrs') = dom (attrs entry_attrs) ∪ {[ "objectcategory" ]}.
Proof.
  intros Hret. apply pre_callback_returns in Hret as [_ ->].
  split; [apply contains_set_objectcategory|].
  unfold set_objectcategory, contains, getitem.
  change (lower "objectcategory") with "objectcategory".
  destruct (attrs entry_attrs !! "objectcategory") as [value|] eqn:Hv; simpl.
  - rewrite Hv. split; [done|].
    assert ("objectcategory" ∈ dom (attrs entry_attrs))
      by (apply elem_of_dom; by exists value).
    set_solver.
  - change (lower "objectCategory") with "objectcategory".
    rewrite lookup_insert_eq, dom_insert_L. split; [done|]. set_solver.
Qed.

End entry.

(** X6.  The hook applied to its own result changes nothing more: if a run
    returns [(d1, e1)], any later run on [d1] and [e1], against whatever
    directory, that returns, returns [d1] and [e1] again. *)
Theorem pre_callback_rerun_keeps_entry
    {W W' : Type} (ldap : client W) (ldap' : client W')
    (basedn d d1 d2 : DN) (entry_attrs e1 e2 : LDAPEntry) (w : W) (w' : W') :
  res (run ldap (pre_callback basedn d entry_attrs) w) = Ok (d1, e1) ->
  res (run ldap' (pre_callback basedn d1 e1) w') = Ok (d2, e2) ->
  d2 = d1 /\ e2 = e1.
Proof.
  intros Hfirst Hsecond.
  apply pre_callback_returns in Hfirst as [-> ->].
  apply pre_callback_returns in Hsecond as [-> ->].
  split; [done|].
  apply set_objectcategory_present, contains_set_objectcategory.
Qed.

(** * The hook against the reference directory *)

(** What [EnsureContainer] does to the directory, case by case. *)
Lemma directory_EnsureContainer (C : DN) (w : directory) :
  run directory_client (EnsureContainer C) w =
  match find_entry C (entries w) with
  | Some _ => mkOutcome (Ok tt) w [GetEntry C ["objectclass"]]
  | None =>
      let es := commit (concurrent w) (entries w) in
      let calls := [GetEntry C ["objectclass"]; AddEntry (container_entry C)] in
      match write_error w with
      | Some x =>
          mkOutcome
            match x with
            | DuplicateEntry _ => Ok tt
            | _ => Err (NotFound (failed_to_create (DN_str C) (errors.str x)))
            end
            (mkDirectory es [] (Some x)) calls
      | None =>
          match find_entry C es with
          | Some _ => mkOutcome (Ok tt) (mkDirectory es [] None) calls
          | None =>
              mkOutcome (Ok tt) (mkDirectory (es ++ [container_entry C]) [] None) calls
          end
      end
  end.
Proof.
  rewrite run_EnsureContainer. cbv zeta. simpl. unfold directory_get_entry.
  destruct (find_entry C (entries w)) as [e|] eqn:Hprobe; simpl; [done|].
  unfold directory_add_entry. rewrite dn_container_entry.
  destruct (write_error w) as [[r|m|m]|] eqn:Hfault; simpl; try done.
  by destruct (find_entry C (commit (concurrent w) (entries w))).
Qed.

(** X7.  The hook establishes what the create needs: whenever it returns,
    against a directory whose server does not report a duplicate for an
    entry that is not there, the container [cn=altou,<basedn>] is in the
    directory, whichever branch was taken. *)
Theorem container_exists_after
    (basedn d : DN) (entry_attrs : LDAPEntry) (w : directory)
    (r : DN * LDAPEntry) :
  (forall message, write_error w <> Some (DuplicateEntry message)) ->
  res (run directory_client (pre_callback basedn d entry_attrs) w) = Ok r ->
  DN_join ou.container_dn basedn
  ∈ dn <$> entries (world (run directory_client
                             (pre_callback basedn d entry_attrs) w)).
Proof.
  intros Hhonest. rewrite run_pre_callback. cbv zeta. cbn [res world].
  rewrite directory_EnsureContainer. cbv zeta.
  set (C := DN_join ou.container_dn basedn).
  destruct (find_entry C (entries w)) as [e|] eqn:Hprobe; simpl.
  { intros _. apply find_entry_is_Some. by exists e. }
  destruct (write_error w) as [[reason|m|m]|] eqn:Hfault; simpl; try done.
  { by destruct (Hhonest m). }
  destruct (find_entry C (commit (concurrent w) (entries w))) as [e|] eqn:Hwrite;
    simpl; intros _.
  - apply find_entry_is_Some. by exists e.
  - rewrite fmap_app. apply elem_of_app. right.
    change (dn <$> [container_entry C]) with [dn (container_entry C)].
    rewrite dn_container_entry. by apply list_elem_of_singleton.
Qed.

(** X8.  The whole hook is idempotent on a directory that accepts writes:
    the first run returns the DN with the pre-processed entry; a second run
    on that result returns the very same pair, issues the probe only, and
    leaves the directory as the first run left it. *)
Theorem pre_callback_twice
    (basedn d : DN) (entry_attrs : LDAPEntry) (w : directory) :
  write_error w = None ->
  let C := DN_join ou.container_dn basedn in
  let first := run directory_client (pre_callback basedn d entry_attrs) w in
  let e1 := set_objectcategory basedn entry_attrs in
  res first = Ok (d, e1)
  /\ run directory_client (pre_callback basedn d e1) (world first)
     = mkOutcome (Ok (d, e1)) (world first) [GetEntry C ["objectclass"]].
Proof.
  intros Hok C first e1.
  assert (res first = Ok (d, e1) /\ C ∈ dn <$> entries (world first)) as [Hres HC].
  { subst first. rewrite run_pre_callback. cbv zeta. cbn [res world].
    rewrite directory_EnsureContainer. cbv zeta. fold C. rewrite Hok.
    destruct (find_entry C (entries w)) as [e|] eqn:Hprobe; simpl.
    { split; [done|]. apply find_entry_is_Some. by exists e. }
    destruct (find_entry C (commit (concurrent w) (entries w))) as [e|] eqn:Hwrite;
      simpl; (split; [done|]).
    - apply find_entry_is_Some. by exists e.
    - rewrite fmap_app. apply elem_of_app. right.
      change (dn <$> [container_entry C]) with [dn (container_entry C)].
      rewrite dn_container_entry. by apply list_elem_of_singleton. }
  split; [done|].
  rewrite run_pre_callback. cbv zeta. fold C.
  rewrite (directory_found C (world first) HC). cbn [res world trace].
  subst e1.
  by rewrite (set_objectcategory_present basedn
                (set_objectcategory basedn entry_attrs)
                (contains_set_objectcategory basedn entry_attrs)).
Qed.

(** ** Two callers at once *)

(** The result and the final state of a run are those of the run that goes
    on after the first call. *)
Lemma run_step {W A} (ldap : client W) (p : prog A) (w : W) :
  res (run ldap p w) = res (run ldap (step ldap p w).1 (step ldap p w).2)
  /\ world (run ldap p w) = world (run ldap (step ldap p w).1 (step ldap p w).2).
Proof. by destruct p. Qed.

Lemma step_EnsureContainer (C : DN) (w : directory) :
  step directory_client (EnsureContainer C) w
  = (match find_entry C (entries w) with
     | Some _ => Return tt
     | None => EnsureContainer_write C
     end, w).
Proof.
  unfold EnsureContainer, step; simpl. unfold directory_get_entry.
  by destruct (find_entry C (entries w)).
Qed.

Lemma step_EnsureContainer_write (C : DN) (w : directory) :
  healthy w ->
  let s := step directory_client (EnsureContainer_write C) w in
  s.1 = Return tt
  /\ healthy s.2
  /\ C ∈ dn <$> entries s.2
  /\ forall d, d ∈ dn <$> entries w -> d ∈ dn <$> entries s.2.
Proof.
  intros [Hok Hw]. unfold EnsureContainer_write, step; simpl.
  unfold directory_add_entry. rewrite Hok, dn_container_entry.
  pose proof (commit_NoDup (concurrent w) (entries w) Hw) as Hes.
  destruct (find_entry C (commit (concurrent w) (entries w))) as [e|] eqn:Hwrite;
    simpl.
  - split; [done|]. split; [by split|]. split.
    + apply find_entry_is_Some. by exists e.
    + intros d Hd. by apply commit_mono.
  - apply find_entry_None in Hwrite.
    split; [done|]. unfold healthy; simpl. rewrite fmap_app.
    change (dn <$> [container_entry C]) with [dn (container_entry C)].
    rewrite dn_container_entry. split; [split; [done|]|split].
    + apply NoDup_app. repeat split; [done| |apply NoDup_singleton].
      intros d Hd ->%list_elem_of_singleton. done.
    + apply elem_of_app. right. by apply list_elem_of_singleton.
    + intros d Hd. apply elem_of_app. left. by apply commit_mono.
Qed.

(** A call of one caller keeps the directory healthy, leaves that caller in
    flight, and does not disturb any other caller in flight. *)
Lemma in_flight_step (C : DN) (p : prog unit) (w : directory) :
  healthy w ->
  in_flight C p w ->
  let s := step directory_client p w in
  healthy s.2
  /\ in_flight C s.1 s.2
  /\ forall q, in_flight C q w -> in_flight C q s.2.
Proof.
  intros Hw [->|[->|[-> HC]]].
  - rewrite step_EnsureContainer. cbn [fst snd].
    split; [done|]. split; [|done].
    destruct (find_entry C (entries w)) as [e|] eqn:Hprobe.
    + right; right. split; [done|]. apply find_entry_is_Some. by exists e.
    + right; by left.
  - destruct (step_EnsureContainer_write C w Hw) as (Hs & Hh & HC & Hmono).
    cbv zeta. split; [done|]. split.
    + right; right. by split.
    + intros q [->|[->|[-> Hq]]]; [by left | right; by left |].
      right; right. split; [done|]. by apply Hmono.
  - simpl. split; [done|]. split; [|done]. right; right. by split.
Qed.

(** A caller in flight that is left to run finishes successfully, with the
    container in the directory. *)
Lemma in_flight_run (C : DN) (p : prog unit) (w : directory) :
  healthy w ->
  in_flight C p w ->
  let o := run directory_client p w in
  res o = Ok tt
  /\ healthy (world o)
  /\ C ∈ dn <$> entries (world o)
  /\ forall q, in_flight C q w -> in_flight C q (world o).
Proof.
  assert (forall w', healthy w' ->
            let o := run directory_client (EnsureContainer_write C) w' in
            res o = Ok tt /\ healthy (world o) /\ C ∈ dn <$> entries (world o)
            /\ forall q, in_flight C q w' -> in_flight C q (world o))
    as Hwrite.
  { intros w' Hw'. cbv zeta.
    destruct (run_step directory_client (EnsureContainer_write C) w') as [-> ->].
    destruct (in_flight_step C (EnsureContainer_write C) w' Hw') as (Hh & _ & Hq);
      [right; by left|].
    destruct (step_EnsureContainer_write C w' Hw') as (-> & _ & HC & _).
    cbn [run res world]. split; [done|]. split; [done|]. by split. }
  intros Hw [->|[->|[-> HC]]]; [|by apply Hwrite|].
  2: { cbn [run res world]. split; [done|]. split; [done|]. by split. }
  cbv zeta.
  destruct (run_step directory_client (EnsureContainer C) w) as [-> ->].
  rewrite step_EnsureContainer. cbn [fst snd].
  destruct (find_entry C (entries w)) as [e|] eqn:Hprobe.
  - simpl. split; [done|]. split; [done|]. split; [|done].
    apply find_entry_is_Some. by exists e.
  - by apply Hwrite.
Qed.

(** Whatever the order in which the calls of two callers in flight reach
    the directory, both finish successfully with the container there. *)
Lemma in_flight_run2 (C : DN) (schedule : list bool) (p q : prog unit) (w : directory) :
  healthy w ->
  in_flight C p w ->
  in_flight C q w ->
  let r := run2 directory_client schedule p q w in
  r.1.1 = Ok tt /\ r.1.2 = Ok tt
  /\ healthy r.2 /\ C ∈ dn <$> entries r.2.
Proof.
  revert p q w.
  induction schedule as [|[] schedule IH]; intros p q w Hw Hp Hq; simpl.
  - destruct (in_flight_run C p w Hw Hp) as (Hres & Hw1 & _ & Hkeep).
    destruct (in_flight_run C q _ Hw1 (Hkeep q Hq)) as (Hres' & Hw2 & HC & _).
    done.
  - destruct (in_flight_step C p w Hw Hp) as (Hw1 & Hp1 & Hkeep).
    by apply IH; [| |apply Hkeep].
  - destruct (in_flight_step C q w Hw Hq) as (Hw1 & Hq1 & Hkeep).
    by apply IH; [|apply Hkeep|].
Qed.

(** X9.  Two callers that ensure the same container at the same time, on a
    directory that accepts writes: in whatever order their calls reach the
    directory, both succeed, and afterwards there is exactly one entry
    under the container DN. *)
Theorem concurrent_EnsureContainer (C : DN) (schedule : list bool) (w : directory) :
  write_error w = None ->
  NoDup (dn <$> entries w) ->
  let r := run2 directory_client schedule (EnsureContainer C) (EnsureContainer C) w in
  r.1.1 = Ok tt
  /\ r.1.2 = Ok tt
  /\ count_at C (entries r.2) = 1.
Proof.
  intros Hok Hw.
  destruct (in_flight_run2 C schedule (EnsureContainer C) (EnsureContainer C) w)
    as (H1 & H2 & [_ Hnodup] & HC); [done|by left|by left|].
  cbv zeta. repeat split; [done..|]. by apply count_at_present.
Qed.

(** ** The further properties on the scenarios *)

Lemma probe_error_propagates_witness :
  run unreachable (pre_callback example_basedn (dn engineering) engineering) tt
  = mkOutcome (Err (OtherError "cannot connect")) tt
      [GetEntry example_container ["objectclass"]].
Proof.
  apply (probe_error_propagates unreachable example_basedn (dn engineering)
           engineering tt tt (OtherError "cannot connect")).
  - reflexivity.
  - intros reason H. discriminate H.
Defined.

Lemma raised_NotFound_is_provisioning_failure_witness :
  (exists r,
      (on_get_entry directory_client example_container ["objectclass"] failing).1
      = Err (NotFound r))
  /\ exists cause,
       (on_add_entry directory_client (container_entry example_container)
          (on_get_entry directory_client example_container ["objectclass"]
             failing).2).1 = Err cause
       /\ "Failed to create container cn=altou,dc=example,dc=com: I/O error"
          = "Failed to create container " +:+ DN_str example_container +:+ ": "
            +:+ errors.str cause.
Proof.
  apply (raised_NotFound_is_provisioning_failure directory_client example_basedn
           (dn engineering) engineering failing
           "Failed to create container cn=altou,dc=example,dc=com: I/O error").
  reflexivity.
Defined.

Lemma objectcategory_present_after_witness :
  contains "objectcategory" (set_objectcategory example_basedn engineering) = true
  /\ getitem "objectcategory" (set_objectcategory example_basedn engineering)
     = match getitem "objectcategory" engineering with
       | Some value => Some value
       | None =>
           Some ["CN=altOrganizationalUnit,CN=schema," +:+ DN_str example_basedn]
       end
  /\ dom (attrs (set_objectcategory example_basedn engineering))
     = dom (attrs engineering) ∪ {[ "objectcategory" ]}.
Proof.
  apply (objectcategory_present_after directory_client example_basedn
           (dn engineering) engineering empty_directory (dn engineering)
           (set_objectcategory example_basedn engineering)).
  reflexivity.
Defined.

Lemma pre_callback_rerun_keeps_entry_witness :
  dn engineering = dn engineering
  /\ set_objectcategory example_basedn engineering
     = set_objectcategory example_basedn engineering.
Proof.
  apply (pre_callback_rerun_keeps_entry directory_client directory_client
           example_basedn (dn engineering) (dn engineering) (dn engineering)
           engineering (set_objectcategory example_basedn engineering)
           (set_objectcategory example_basedn engineering)
           empty_directory racing);
    reflexivity.
Defined.

Lemma container_exists_after_witness :
  example_container
  ∈ dn <$> entries (world (run directory_client
                             (pre_callback example_basedn (dn engineering)
                                engineering) racing)).
Proof.
  apply (container_exists_after example_basedn (dn engineering) engineering
           racing (dn engineering, set_objectcategory example_basedn engineering)).
  - intros message H. discriminate H.
  - reflexivity.
Defined.

Lemma pre_callback_twice_witness :
  let first := run directory_client
                 (pre_callback example_basedn (dn engineering) engineering)
                 empty_directory in
  let e1 := set_objectcategory example_basedn engineering in
  res first = Ok (dn engineering, e1)
  /\ run directory_client (pre_callback example_basedn (dn engineering) e1)
       (world first)
     = mkOutcome (Ok (dn engineering, e1)) (world first)
         [GetEntry example_container ["objectclass"]].
Proof.
  apply (pre_callback_twice example_basedn (dn engineering) engineering
           empty_directory).
  reflexivity.
Defined.

(** Both callers probe before either writes: the second write meets the
    entry of the first. *)
Lemma concurrent_EnsureContainer_witness :
  let r := run2 directory_client [true; false; true; false]
             (EnsureContainer example_container)
             (EnsureContainer example_container) empty_directory in
  r.1.1 = Ok tt
  /\ r.1.2 = Ok tt
  /\ count_at example_container (entries r.2) = 1.
Proof.
  apply (concurrent_EnsureContainer example_container [true; false; true; false]
           empty_directory).
  - reflexivity.
  - simpl. constructor.
Defined.
